(** * Pocket_man: personal finance dashboard (financial_dashboard.py)

    A shallow embedding of the Streamlit script: the session store with its
    two DataFrames, the two sidebar handlers, and the aggregations computed
    by the three tabs (totals, monthly trend, expense breakdown, CSV export,
    budget versus actual). *)

From Stdlib Require Import List Bool ZArith Lia String Ascii.
From Stdlib Require Import Sorted Permutation QArith Qcanon OrderedTypeEx.
From Stdlib Require Import Floats.
Import ListNotations.
Local Open Scope Z_scope.

Set Implicit Arguments.
Set Warnings "-inexact-float".

(** ** Amounts

    The amounts are the numbers returned by [st.number_input]; the script
    only adds, subtracts, divides, multiplies and compares them.  The
    development is parametric in these operations, with two instances:
    binary64 floats, which is what Python computes with, and exact
    rationals.  Algebraic laws are never built in: a theorem that needs
    one takes it as a hypothesis. *)

Record Arith : Type := {
  num :> Type;
  zero : num;          (* 0, the value of an empty [sum()] and of [fillna(0)] *)
  add : num -> num -> num;
  sub : num -> num -> num;
  mul : num -> num -> num;
  div : num -> num -> num;
  le : num -> num -> Prop;
  lt : num -> num -> Prop;
  hundred : num;       (* the literal 100 of line 155 *)
  min_value : num      (* the literal 0.01 of lines 37 and 59 *)
}.

Arguments zero {_}.
Arguments add {_} _ _.
Arguments sub {_} _ _.
Arguments mul {_} _ _.
Arguments div {_} _ _.
Arguments le {_} _ _.
Arguments lt {_} _ _.
Arguments hundred {_}.
Arguments min_value {_}.

(** Exact rational arithmetic, the instance used for concrete runs. *)
Definition Qc_arith : Arith := {|
  num := Qc;
  zero := Q2Qc 0;
  add := Qcplus;
  sub := Qcminus;
  mul := Qcmult;
  div := Qcdiv;
  le := Qcle;
  lt := Qclt;
  hundred := Q2Qc 100;
  min_value := Q2Qc (1 # 100)
|}.

Definition amount (n : Z) (d : positive) : Qc_arith := Q2Qc (n # d).

(** Python's [float]: IEEE 754 binary64, rounding to nearest even. *)
Definition Float_arith : Arith := {|
  num := float;
  zero := 0%float;
  add := PrimFloat.add;
  sub := PrimFloat.sub;
  mul := PrimFloat.mul;
  div := PrimFloat.div;
  le := fun x y => PrimFloat.leb x y = true;
  lt := fun x y => PrimFloat.ltb x y = true;
  hundred := 100%float;
  min_value := 0x1.47ae147ae147bp-7%float
|}.

(** ** Enumerated columns *)

(** The options of the two category select boxes (lines 34 and 56). *)
Inductive category : Type :=
  Food | Transport | Rent | Entertainment | Utilities | Other.

Definition category_name (c : category) : string :=
  match c with
  | Food => "Food"
  | Transport => "Transport"
  | Rent => "Rent"
  | Entertainment => "Entertainment"
  | Utilities => "Utilities"
  | Other => "Other"
  end.

(** The options of the radio button of line 38. *)
Inductive kind : Type := Income | Expense.

Definition kind_name (k : kind) : string :=
  match k with
  | Income => "Income"
  | Expense => "Expense"
  end.

(** Columns hold the option strings; [==] and [!=] compare those. *)
Definition category_eqb (a b : category) : bool :=
  String.eqb (category_name a) (category_name b).

Definition kind_eqb (a b : kind) : bool :=
  String.eqb (kind_name a) (kind_name b).

(** [datetime.date] as returned by [st.date_input]. *)
Record date : Type := { year : Z; month : Z; day : Z }.

(** ** [groupby(...).sum().reset_index()]

    One output row per key that occurs in the frame, keys in ascending
    order ([sort=True] is the default), each with the sum of the value
    column over the rows of its group, taken in frame order. *)

Section GroupBy.

Context {A : Arith} {R K : Type}.
Variable cmp : K -> K -> comparison.
Variable key : R -> K.
Variable val : R -> A.

(** [Series.sum()]: accumulate from 0, in row order. *)
Definition sum (xs : list A) : A := fold_left add xs zero.

Fixpoint insert_key (k : K) (ks : list K) : list K :=
  match ks with
  | [] => [k]
  | k' :: rest =>
      match cmp k k' with
      | Lt => k :: ks
      | Eq => ks
      | Gt => k' :: insert_key k rest
      end
  end.

(** Strictly ascending keys. *)
Definition key_lt (a b : K) : Prop := cmp a b = Lt.

Definition group_keys (rows : list R) : list K :=
  fold_right (fun r ks => insert_key (key r) ks) [] rows.

Definition in_group (k : K) (r : R) : bool :=
  match cmp (key r) k with Eq => true | _ => false end.

Definition groupby_sum (rows : list R) : list (K * A) :=
  map (fun k => (k, sum (map val (filter (in_group k) rows))))
      (group_keys rows).

End GroupBy.

(** ** Month keys (line 99)

    [pd.to_datetime(...).dt.to_period('M').astype(str)]: the year on four
    digits, a dash, the month on two digits. *)

Definition digit (n : Z) : ascii := ascii_of_N (48 + Z.to_N (n mod 10)).

Definition two_digits (n : Z) : string :=
  String (digit (n / 10)) (String (digit n) EmptyString).

Definition four_digits (n : Z) : string :=
  String (digit (n / 1000)) (String (digit (n / 100)) (two_digits n)).

Definition month_key (d : date) : string :=
  (four_digits (year d) ++ "-" ++ two_digits (month d))%string.

(** Reading back a key of the form YYYY-MM. *)
Definition is_digit (c : ascii) : bool :=
  ((48 <=? N_of_ascii c) && (N_of_ascii c <=? 57))%N.

Definition digit_value (c : ascii) : Z := Z.of_N (N_of_ascii c) - 48.

Definition read_month_key (s : string) : option (Z * Z) :=
  match s with
  | String y3 (String y2 (String y1 (String y0
      (String dash (String m1 (String m0 EmptyString)))))) =>
      if forallb is_digit [y3; y2; y1; y0; m1; m0] && Ascii.eqb dash "-"
      then Some (1000 * digit_value y3 + 100 * digit_value y2
                 + 10 * digit_value y1 + digit_value y0,
                 10 * digit_value m1 + digit_value m0)
      else None
  | _ => None
  end.

(** Object columns are ordered as Python orders [str]. *)
Definition category_compare (a b : category) : comparison :=
  String.compare (category_name a) (category_name b).

Definition kind_compare (a b : kind) : comparison :=
  String.compare (kind_name a) (kind_name b).

(** Order of the two-column group key [['Month', 'Type']]. *)
Definition month_type_compare (a b : string * kind) : comparison :=
  match String.compare (fst a) (fst b) with
  | Eq => kind_compare (snd a) (snd b)
  | c => c
  end.

(** Calendar dates that [pd.to_datetime] accepts: the years that lie
    entirely within the bounds of [pd.Timestamp]. *)
Definition valid_date (d : date) : Prop :=
  1678 <= year d <= 2261 /\ 1 <= month d <= 12.


(** Order of [datetime.date] values. *)
Definition date_compare (a b : date) : comparison :=
  match Z.compare (year a) (year b) with
  | Eq => match Z.compare (month a) (month b) with
          | Eq => Z.compare (day a) (day b)
          | c => c
          end
  | c => c
  end.

Section Ledger.

Context {A : Arith}.

(** ** The session store *)

(** A row of [st.session_state.transactions] (columns of line 19). *)
Record transaction : Type := {
  Date : date;
  Description : string;
  Category : category;
  Amount : A;
  Type_ : kind
}.

(** A row of [st.session_state.budgets] (columns of line 24). *)
Record budget : Type := {
  budget_Category : category;
  budget_Amount : A
}.

Record session_state : Type := {
  transactions : list transaction;
  budgets : list budget
}.

(** Lines 17-25: both frames start empty. *)
Definition initial_state : session_state :=
  {| transactions := []; budgets := [] |}.

(** Lines 40-50: the body of the "Add Transaction" handler. *)
Definition add_transaction (st : session_state) (t : transaction)
  : session_state :=
  {| transactions := transactions st ++ [t];
     budgets := budgets st |}.

(** Lines 61-71: the body of the "Set Budget" handler. *)
Definition upsert_budget (st : session_state) (c : category) (amount : A)
  : session_state :=
  {| transactions := transactions st;
     budgets :=
       filter (fun b => negb (category_eqb (budget_Category b) c)) (budgets st)
       ++ [ {| budget_Category := c; budget_Amount := amount |} ] |}.

(** ** Totals (lines 81-87) *)

Definition has_type (k : kind) (t : transaction) : bool :=
  kind_eqb (Type_ t) k.

Definition total_income (txs : list transaction) : A :=
  sum (map Amount (filter (has_type Income) txs)).

Definition total_expenses (txs : list transaction) : A :=
  sum (map Amount (filter (has_type Expense) txs)).

Definition net_balance (txs : list transaction) : A :=
  sub (total_income txs) (total_expenses txs).

(** ** The sidebar (lines 28-72)

    One run of the script reads the widgets; a button is [true] in the run
    that follows its click. *)

Record widgets : Type := {
  trans_date : date;
  trans_desc : string;
  trans_category : category;
  trans_amount : A;
  trans_type : kind;
  add_transaction_clicked : bool;
  budget_category : category;
  budget_amount : A;
  set_budget_clicked : bool
}.

(** [min_value=0.01] on both number inputs (lines 37 and 59). *)
Definition widgets_ok (w : widgets) : Prop :=
  le min_value (trans_amount w) /\ le min_value (budget_amount w).

Definition new_transaction (w : widgets) : transaction :=
  {| Date := trans_date w;
     Description := trans_desc w;
     Category := trans_category w;
     Amount := trans_amount w;
     Type_ := trans_type w |}.

Definition sidebar (w : widgets) (st : session_state) : session_state :=
  let st1 :=
    if add_transaction_clicked w
    then add_transaction st (new_transaction w)
    else st in
  if set_budget_clicked w
  then upsert_budget st1 (budget_category w) (budget_amount w)
  else st1.

(** The store after a sequence of runs of the script. *)
Definition run_script (ws : list widgets) : session_state :=
  fold_left (fun st w => sidebar w st) ws initial_state.

(** Stores the script can be in: every run read widgets that respect
    their minimum. *)
Inductive reachable : session_state -> Prop :=
| reachable_init : reachable initial_state
| reachable_run : forall st w,
    reachable st -> widgets_ok w -> reachable (sidebar w st).

(** ** Monthly trend (lines 98-100) *)

Record monthly_row : Type := {
  Month : string;
  monthly_Type : kind;
  monthly_Amount : A
}.

Definition month_type (t : transaction) : string * kind :=
  (month_key (Date t), Type_ t).

Definition monthly_data (txs : list transaction) : list monthly_row :=
  map (fun g => {| Month := fst (fst g);
                   monthly_Type := snd (fst g);
                   monthly_Amount := snd g |})
      (groupby_sum month_type_compare month_type Amount txs).

Definition monthly_key (r : monthly_row) : string * kind :=
  (Month r, monthly_Type r).

(** The transactions of one month and one type. *)
Definition in_month_type (m : string) (k : kind) (t : transaction) : bool :=
  String.eqb (month_key (Date t)) m && kind_eqb (Type_ t) k.

(** ** Expense breakdown (lines 112-120) *)

Definition expenses (txs : list transaction) : list transaction :=
  filter (has_type Expense) txs.

(** The labels of a pie chart, each once, in order of first occurrence. *)
Fixpoint unique (cs : list category) : list category :=
  match cs with
  | [] => []
  | c :: rest => c :: filter (fun x => negb (category_eqb x c)) (unique rest)
  end.

(** [px.pie(frame, names='Category', values='Amount')]: one sector per
    label, rows with the same label add up. *)
Definition pie (rows : list transaction) : list (category * A) :=
  map (fun c =>
         (c, sum (map Amount
                      (filter (fun t => category_eqb (Category t) c) rows))))
      (unique (map Category rows)).

(** The chart is drawn only when there is an expense (line 113). *)
Definition expense_breakdown (txs : list transaction)
  : option (list (category * A)) :=
  match expenses txs with
  | [] => None
  | _ :: _ => Some (pie (expenses txs))
  end.

(** ** Overview tab (lines 77-122) *)

Record overview : Type := {
  shown_total_income : A;
  shown_total_expenses : A;
  shown_net_balance : A;
  shown_monthly_data : list monthly_row;
  shown_breakdown : option (list (category * A))
}.

(** [None] is the "No transactions yet" notice. *)
Definition tab1 (st : session_state) : option overview :=
  match transactions st with
  | [] => None
  | _ :: _ =>
      Some {| shown_total_income := total_income (transactions st);
              shown_total_expenses := total_expenses (transactions st);
              shown_net_balance := net_balance (transactions st);
              shown_monthly_data := monthly_data (transactions st);
              shown_breakdown := expense_breakdown (transactions st) |}
  end.

(** ** Transaction history tab (lines 124-139) *)

(** [sort_values('Date', ascending=False)]: a new frame, later dates
    first; rows of the same date keep their order here (pandas leaves the
    order of ties to its sorting algorithm). *)
Fixpoint insert_by_date (t : transaction) (sorted : list transaction)
  : list transaction :=
  match sorted with
  | [] => [t]
  | x :: rest =>
      match date_compare (Date x) (Date t) with
      | Gt => x :: insert_by_date t rest
      | _ => t :: sorted
      end
  end.

Definition sort_values_Date_descending (frame : list transaction)
  : list transaction :=
  fold_right insert_by_date [] frame.

(** A value of a frame before it is written out as text. *)
Inductive cell : Type :=
| date_cell : date -> cell
| text_cell : string -> cell
| number_cell : A -> cell.

Definition columns : list string :=
  [ "Date"; "Description"; "Category"; "Amount"; "Type" ]%string.

Definition record_of (t : transaction) : list cell :=
  [ date_cell (Date t);
    text_cell (Description t);
    text_cell (category_name (Category t));
    number_cell (Amount t);
    text_cell (kind_name (Type_ t)) ].

(** What [to_csv(index=False)] writes: the column names, then one record
    per row of the frame, in frame order.  Rendering the cells as text
    (quoting, the digits of a float) is the business of pandas. *)
Definition to_csv (frame : list transaction)
  : list string * list (list cell) :=
  (columns, map record_of frame).

(** The table on screen and the content of the download; [None] is the
    "No transactions yet" notice. *)
Definition tab2 (st : session_state)
  : option (list transaction * (list string * list (list cell))) :=
  match transactions st with
  | [] => None
  | _ :: _ =>
      Some (sort_values_Date_descending (transactions st),
            to_csv (transactions st))
  end.

(** ** Budget analysis tab (lines 141-173) *)

(** Lines 144-146. *)
Definition expenses_by_category (txs : list transaction)
  : list (category * A) :=
  groupby_sum category_compare Category Amount (expenses txs).

(** [pd.merge(left, right, on='Category', how='left')]: the left rows in
    their order, each paired with every right row of the same key, or
    with a missing value when there is none. *)
Definition merge_left (left : list budget) (right : list (category * A))
  : list (category * A * option A) :=
  flat_map
    (fun b =>
       match filter (fun e => category_eqb (fst e) (budget_Category b)) right
       with
       | [] => [ (budget_Category b, budget_Amount b, None) ]
       | matches =>
           map (fun e => (budget_Category b, budget_Amount b, Some (snd e)))
               matches
       end)
    left.

(** [.fillna(0)] on the one column that can miss. *)
Definition fillna (v : option A) : A :=
  match v with
  | Some x => x
  | None => zero
  end.

Record budget_row : Type := {
  row_Category : category;
  Amount_budget : A;
  Amount_actual : A;
  Remaining : A;
  Percentage_Used : A
}.

(** Lines 147-155. *)
Definition budget_vs_actual (txs : list transaction) (bs : list budget)
  : list budget_row :=
  map (fun m =>
         let amount_budget := snd (fst m) in
         let amount_actual := fillna (snd m) in
         {| row_Category := fst (fst m);
            Amount_budget := amount_budget;
            Amount_actual := amount_actual;
            Remaining := sub amount_budget amount_actual;
            Percentage_Used := mul (div amount_actual amount_budget) hundred |})
      (merge_left bs (expenses_by_category txs)).

(** [None] is the "Add transactions and set budgets" notice (line 143). *)
Definition tab3 (st : session_state) : option (list budget_row) :=
  match transactions st, budgets st with
  | _ :: _, _ :: _ =>
      Some (budget_vs_actual (transactions st) (budgets st))
  | _, _ => None
  end.

(** ** Reference definitions, following the specification *)



(** "The category's total Expense sum". *)
Definition actual_spending (c : category) (txs : list transaction) : A :=
  sum (map Amount
         (filter (fun t => has_type Expense t && category_eqb (Category t) c)
                 txs)).

(** The budget-versus-actual line of one budget record. *)
Definition budget_line (txs : list transaction) (b : budget) : budget_row :=
  let actual := actual_spending (budget_Category b) txs in
  {| row_Category := budget_Category b;
     Amount_budget := budget_Amount b;
     Amount_actual := actual;
     Remaining := sub (budget_Amount b) actual;
     Percentage_Used := mul (div actual (budget_Amount b)) hundred |}.

(** The limit given by the most recent upsert for a category, if any. *)
Fixpoint last_upsert (c : category) (ups : list (category * A)) : option A :=
  match ups with
  | [] => None
  | (c', v) :: rest =>
      match last_upsert c rest with
      | Some v' => Some v'
      | None => if category_eqb c' c then Some v else None
      end
  end.

(** The budget records of one category. *)
Definition budgets_of (c : category) (bs : list budget) : list budget :=
  filter (fun b => category_eqb (budget_Category b) c) bs.

(** At most one record per category, as a property of the frame. *)
Definition one_per_category (bs : list budget) : Prop :=
  NoDup (map budget_Category bs).

(** The upserts performed by a sequence of runs of the script. *)
Definition upserts_of (ws : list widgets) : list (category * A) :=
  flat_map
    (fun w =>
       if set_budget_clicked w
       then [ (budget_category w, budget_amount w) ]
       else [])
    ws.

(** Applying a sequence of upserts to a store. *)
Definition upsert_all (st : session_state) (ups : list (category * A))
  : session_state :=
  fold_left (fun s u => upsert_budget s (fst u) (snd u)) ups st.

End Ledger.

Arguments transaction : clear implicits.
Arguments budget : clear implicits.
Arguments session_state : clear implicits.
Arguments widgets : clear implicits.
Arguments monthly_row : clear implicits.
Arguments overview : clear implicits.
Arguments budget_row : clear implicits.
Arguments cell : clear implicits.

(** ** The charts and the runs of the script *)

Section Views.

Context {A : Arith}.

(** Line 101: [px.line(..., color='Type')] draws one line per type, through
    the rows of that type in frame order. *)
Definition line_of (k : kind) (rows : list (monthly_row A))
  : list (monthly_row A) :=
  filter (fun r => kind_eqb (monthly_Type r) k) rows.


(** The transactions submitted by a sequence of runs, in order. *)
Definition submitted (ws : list (widgets A)) : list (transaction A) :=
  map new_transaction (filter add_transaction_clicked ws).

(** A run in which a button fired. *)
Definition clicked (w : widgets A) : bool :=
  add_transaction_clicked w || set_budget_clicked w.

(** A tab shows its content rather than its notice. *)
Definition is_shown {X : Type} (view : option X) : bool :=
  match view with
  | Some _ => true
  | None => false
  end.


End Views.

(** The categories of a sequence, each once, at its last occurrence. *)
Fixpoint keep_last (cs : list category) : list category :=
  match cs with
  | [] => []
  | c :: rest =>
      if existsb (category_eqb c) rest
      then keep_last rest
      else c :: keep_last rest
  end.

Definition all_categories : list category :=
  [Food; Transport; Rent; Entertainment; Utilities; Other].

(** A date is not before another. *)
Definition date_ge (a b : date) : Prop := date_compare a b <> Lt.

(** ** A worked ledger

    Two food expenses in consecutive months, one salary, and two budgets,
    in exact arithmetic. *)

Definition groceries : transaction Qc_arith :=
  {| Date := {| year := 2024; month := 1; day := 5 |};
     Description := "groceries";
     Category := Food;
     Amount := amount 50 1;
     Type_ := Expense |}.

Definition dinner : transaction Qc_arith :=
  {| Date := {| year := 2024; month := 2; day := 10 |};
     Description := "";
     Category := Food;
     Amount := amount 30 1;
     Type_ := Expense |}.

Definition salary : transaction Qc_arith :=
  {| Date := {| year := 2024; month := 1; day := 31 |};
     Description := "salary, January";
     Category := Other;
     Amount := amount 250000 100;
     Type_ := Income |}.

Definition ledger : list (transaction Qc_arith) :=
  [groceries; dinner; salary].

Definition food_budget : budget Qc_arith :=
  {| budget_Category := Food; budget_Amount := amount 100 1 |}.

Definition rent_budget : budget Qc_arith :=
  {| budget_Category := Rent; budget_Amount := amount 1200 1 |}.

(** Ledgers of binary64 amounts: three expenses entered out of calendar
    order, and a large rent followed by two small purchases. *)

Definition paid (y m d : Z) (c : category) (a : float)
  : transaction Float_arith :=
  {| Date := {| year := y; month := m; day := d |};
     Description := "";
     Category := c;
     Amount := (a : Float_arith);
     Type_ := Expense |}.



(** The scenario of the specification, in binary64. *)
Definition scenario : list (transaction Float_arith) :=
  [ paid 2024 1 5 Food 50%float; paid 2024 2 10 Food 30%float ].

Definition scenario_budget : budget Float_arith :=
  {| budget_Category := Food; budget_Amount := (100%float : Float_arith) |}.

Definition rent_limit : budget Float_arith :=
  {| budget_Category := Rent; budget_Amount := (1200%float : Float_arith) |}.

(** A run of the script in which both buttons fire. *)
Definition first_run : widgets Float_arith :=
  {| trans_date := {| year := 2024; month := 1; day := 5 |};
     trans_desc := "groceries";
     trans_category := Food;
     trans_amount := (50%float : Float_arith);
     trans_type := Expense;
     add_transaction_clicked := true;
     budget_category := Rent;
     budget_amount := (1200%float : Float_arith);
     set_budget_clicked := true |}.


(** * Properties *)

(** ** Enumerations *)

Lemma category_eqb_eq (a b : category) : category_eqb a b = true <-> a = b.
Proof.
  split; [| intros ->; apply String.eqb_refl ].
  destruct a, b; vm_compute; congruence.
Qed.

Lemma category_eqb_refl (c : category) : category_eqb c c = true.
Proof. apply category_eqb_eq; reflexivity. Qed.

Lemma category_eqb_neq (a b : category) : category_eqb a b = false <-> a <> b.
Proof.
  rewrite <- category_eqb_eq.
  destruct (category_eqb a b); split; congruence.
Qed.

Lemma kind_eqb_eq (a b : kind) : kind_eqb a b = true <-> a = b.
Proof.
  split; [| intros ->; apply String.eqb_refl ].
  destruct a, b; vm_compute; congruence.
Qed.

(** ** Sums *)

Section SumFacts.

Context {A : Arith}.



Lemma filter_none {X : Type} (p : X -> bool) (l : list X) :
  (forall x, In x l -> p x = false) -> filter p l = [].
Proof.
  induction l as [| x l IH]; intros H; simpl.
  - reflexivity.
  - rewrite (H x (or_introl eq_refl)).
    apply IH. intros y Hy. apply H. right. exact Hy.
Qed.

(** Laws of exact addition, used where groups are regrouped. *)
Hypothesis add_assoc : forall x y z : A, add x (add y z) = add (add x y) z.
Hypothesis add_comm : forall x y : A, add x y = add y x.
Hypothesis add_0_l : forall x : A, add zero x = x.




End SumFacts.

(** ** Grouping *)

Section GroupByFacts.

Context {A : Arith} {R K : Type}.
Variable cmp : K -> K -> comparison.
Variable key : R -> K.
Variable val : R -> A.

(** [cmp] is a total order that decides equality of keys. *)
Hypothesis cmp_eq : forall a b, cmp a b = Eq -> a = b.
Hypothesis cmp_antisym : forall a b, cmp a b = CompOpp (cmp b a).
Hypothesis cmp_trans :
  forall a b c, cmp a b = Lt -> cmp b c = Lt -> cmp a c = Lt.

Lemma cmp_refl (a : K) : cmp a a = Eq.
Proof.
  pose proof (cmp_antisym a a) as H.
  destruct (cmp a a); simpl in H; congruence.
Qed.

Lemma in_group_true (k : K) (r : R) : in_group cmp key k r = true <-> key r = k.
Proof.
  unfold in_group. split.
  - destruct (cmp (key r) k) eqn:E; try discriminate.
    intros _. apply cmp_eq. exact E.
  - intros ->. rewrite cmp_refl. reflexivity.
Qed.

Lemma insert_key_In (k : K) (ks : list K) (x : K) :
  In x (insert_key cmp k ks) <-> x = k \/ In x ks.
Proof.
  induction ks as [| k' rest IH]; simpl.
  - intuition.
  - destruct (cmp k k') eqn:E; simpl.
    + apply cmp_eq in E. subst k'. intuition.
    + intuition.
    + rewrite IH. intuition.
Qed.

Lemma insert_key_sorted (k : K) (ks : list K) :
  StronglySorted (key_lt cmp) ks -> StronglySorted (key_lt cmp) (insert_key cmp k ks).
Proof.
  induction 1 as [| k' rest Hs IH Hall]; simpl.
  - repeat constructor.
  - destruct (cmp k k') eqn:E.
    + constructor; assumption.
    + constructor; [ constructor; assumption |].
      constructor; [ exact E |].
      rewrite Forall_forall in Hall |- *.
      intros x Hx. apply (cmp_trans E). apply Hall. exact Hx.
    + constructor; [ exact IH |].
      rewrite Forall_forall in Hall |- *.
      intros x Hx. apply insert_key_In in Hx. destruct Hx as [-> | Hx].
      * unfold key_lt. rewrite cmp_antisym, E. reflexivity.
      * apply Hall. exact Hx.
Qed.

Lemma group_keys_In (rows : list R) (k : K) :
  In k (group_keys cmp key rows) <-> exists r, In r rows /\ key r = k.
Proof.
  induction rows as [| r rows IH]; simpl.
  - split; [ intros [] | intros [r [[] _]] ].
  - rewrite insert_key_In, IH. split.
    + intros [-> | [r' [Hin Hk]]].
      * exists r. auto.
      * exists r'. auto.
    + intros [r' [[-> | Hin] Hk]].
      * left. symmetry. exact Hk.
      * right. exists r'. auto.
Qed.

Lemma group_keys_sorted (rows : list R) :
  StronglySorted (key_lt cmp) (group_keys cmp key rows).
Proof.
  induction rows as [| r rows IH]; simpl.
  - constructor.
  - apply insert_key_sorted. exact IH.
Qed.

Lemma sorted_NoDup (ks : list K) : StronglySorted (key_lt cmp) ks -> NoDup ks.
Proof.
  induction 1 as [| k rest Hs IH Hall].
  - constructor.
  - constructor; [| exact IH ].
    intros Hin. rewrite Forall_forall in Hall.
    specialize (Hall k Hin). unfold key_lt in Hall.
    rewrite cmp_refl in Hall. discriminate.
Qed.

Lemma group_keys_NoDup (rows : list R) : NoDup (group_keys cmp key rows).
Proof. apply sorted_NoDup, group_keys_sorted. Qed.

Lemma groupby_sum_keys (rows : list R) :
  map fst (groupby_sum cmp key val rows) = group_keys cmp key rows.
Proof.
  unfold groupby_sum. rewrite map_map. simpl. apply map_id.
Qed.

Lemma groupby_sum_In (rows : list R) (k : K) (v : A) :
  In (k, v) (groupby_sum cmp key val rows) <->
  In k (group_keys cmp key rows)
  /\ v = sum (map val (filter (in_group cmp key k) rows)).
Proof.
  unfold groupby_sum. rewrite in_map_iff. split.
  - intros [k' [E Hin]]. inversion E; subst. auto.
  - intros [Hin ->]. exists k. auto.
Qed.

(** Regrouping preserves totals when addition is exact. *)
Hypothesis add_assoc : forall x y z : A, add x (add y z) = add (add x y) z.
Hypothesis add_comm : forall x y : A, add x y = add y x.
Hypothesis add_0_l : forall x : A, add zero x = x.



End GroupByFacts.

(** ** The orders of the key columns *)

Lemma string_compare_trans (a b c : string) :
  String.compare a b = Lt -> String.compare b c = Lt -> String.compare a c = Lt.
Proof.
  intros Hab Hbc.
  apply String_as_OT.cmp_lt.
  apply String_as_OT.lt_trans with b; apply String_as_OT.cmp_lt; assumption.
Qed.

Lemma string_compare_refl (s : string) : String.compare s s = Eq.
Proof. apply String_as_OT.cmp_eq. reflexivity. Qed.

Lemma category_name_inj (a b : category) :
  category_name a = category_name b -> a = b.
Proof. destruct a, b; simpl; congruence. Qed.

Lemma kind_name_inj (a b : kind) : kind_name a = kind_name b -> a = b.
Proof. destruct a, b; simpl; congruence. Qed.

Lemma category_compare_eq (a b : category) :
  category_compare a b = Eq -> a = b.
Proof.
  intros H. apply category_name_inj, String.compare_eq_iff. exact H.
Qed.

Lemma category_compare_antisym (a b : category) :
  category_compare a b = CompOpp (category_compare b a).
Proof. apply String.compare_antisym. Qed.

Lemma category_compare_trans (a b c : category) :
  category_compare a b = Lt -> category_compare b c = Lt ->
  category_compare a c = Lt.
Proof. apply string_compare_trans. Qed.

Lemma month_type_compare_eq (a b : string * kind) :
  month_type_compare a b = Eq -> a = b.
Proof.
  destruct a as [m1 k1], b as [m2 k2]. unfold month_type_compare; simpl.
  destruct (String.compare m1 m2) eqn:E; try discriminate.
  intros H. apply String.compare_eq_iff in E.
  apply String.compare_eq_iff, kind_name_inj in H. congruence.
Qed.

Lemma month_type_compare_antisym (a b : string * kind) :
  month_type_compare a b = CompOpp (month_type_compare b a).
Proof.
  destruct a as [m1 k1], b as [m2 k2]. unfold month_type_compare; simpl.
  rewrite (String.compare_antisym m1 m2).
  destruct (String.compare m2 m1); simpl; try reflexivity.
  apply String.compare_antisym.
Qed.

Lemma month_type_compare_trans (a b c : string * kind) :
  month_type_compare a b = Lt -> month_type_compare b c = Lt ->
  month_type_compare a c = Lt.
Proof.
  destruct a as [m1 k1], b as [m2 k2], c as [m3 k3].
  unfold month_type_compare; simpl.
  destruct (String.compare m1 m2) eqn:E12; try discriminate;
    destruct (String.compare m2 m3) eqn:E23; try discriminate;
    intros H12 H23.
  - apply String.compare_eq_iff in E12, E23. subst.
    rewrite string_compare_refl.
    exact (string_compare_trans _ _ _ H12 H23).
  - apply String.compare_eq_iff in E12. subst. rewrite E23. reflexivity.
  - apply String.compare_eq_iff in E23. subst. rewrite E12. reflexivity.
  - rewrite (string_compare_trans _ _ _ E12 E23). reflexivity.
Qed.


(** ** Month keys *)

Lemma N_of_ascii_digit (n : Z) :
  N_of_ascii (digit n) = (48 + Z.to_N (n mod 10))%N.
Proof.
  unfold digit. apply N_ascii_embedding.
  pose proof (Z.mod_pos_bound n 10 eq_refl). lia.
Qed.





Lemma digit_is_digit (n : Z) : is_digit (digit n) = true.
Proof.
  unfold is_digit. rewrite N_of_ascii_digit.
  pose proof (Z.mod_pos_bound n 10 eq_refl).
  apply andb_true_intro. split; apply N.leb_le; lia.
Qed.

Lemma digit_value_digit (n : Z) : digit_value (digit n) = n mod 10.
Proof.
  unfold digit_value. rewrite N_of_ascii_digit.
  pose proof (Z.mod_pos_bound n 10 eq_refl). lia.
Qed.

(** The key of a calendar date reads back as its year and month. *)
Lemma read_month_key_month_key (d : date) :
  valid_date d -> read_month_key (month_key d) = Some (year d, month d).
Proof.
  intros [Hy Hm]. unfold month_key, four_digits, two_digits, read_month_key.
  cbn [String.append forallb].
  rewrite !digit_is_digit, !digit_value_digit.
  cbn [andb Ascii.eqb Bool.eqb].
  f_equal. f_equal; Z.div_mod_to_equations; lia.
Qed.

(** ** The session store *)

Section StoreFacts.

Context {A : Arith}.

Lemma budgets_of_app (c : category) (l1 l2 : list (budget A)) :
  budgets_of c (l1 ++ l2) = budgets_of c l1 ++ budgets_of c l2.
Proof. apply filter_app. Qed.

(** Dropping the records of [c'] leaves none of [c'] and keeps the others. *)
Lemma budgets_of_drop (c c' : category) (bs : list (budget A)) :
  budgets_of c
    (filter (fun b => negb (category_eqb (budget_Category b) c')) bs)
  = if category_eqb c' c then [] else budgets_of c bs.
Proof.
  unfold budgets_of.
  induction bs as [| b bs IH]; simpl.
  - destruct (category_eqb c' c); reflexivity.
  - destruct (category_eqb (budget_Category b) c') eqn:E1; simpl.
    + apply category_eqb_eq in E1. rewrite E1.
      destruct (category_eqb c' c) eqn:E2; [ exact IH |].
      rewrite IH. reflexivity.
    + destruct (category_eqb (budget_Category b) c) eqn:E2; simpl.
      * destruct (category_eqb c' c) eqn:E3.
        -- apply category_eqb_eq in E2, E3. subst.
           rewrite category_eqb_refl in E1. discriminate.
        -- rewrite IH. reflexivity.
      * exact IH.
Qed.

Lemma budgets_of_upsert (st : session_state A) (c' : category) (v : A)
      (c : category) :
  budgets_of c (budgets (upsert_budget st c' v))
  = if category_eqb c' c
    then [ {| budget_Category := c; budget_Amount := v |} ]
    else budgets_of c (budgets st).
Proof.
  unfold upsert_budget; simpl.
  rewrite budgets_of_app, budgets_of_drop.
  unfold budgets_of at 2; simpl.
  destruct (category_eqb c' c) eqn:E; simpl.
  - apply category_eqb_eq in E. subst. reflexivity.
  - apply app_nil_r.
Qed.

Lemma budgets_of_upsert_all (ups : list (category * A))
      (st : session_state A) (c : category) :
  budgets_of c (budgets (upsert_all st ups))
  = match last_upsert c ups with
    | Some v => [ {| budget_Category := c; budget_Amount := v |} ]
    | None => budgets_of c (budgets st)
    end.
Proof.
  revert st.
  induction ups as [| [c' v] rest IH]; intros st; simpl.
  - reflexivity.
  - unfold upsert_all in *. simpl. rewrite IH.
    destruct (last_upsert c rest); [ reflexivity |].
    rewrite budgets_of_upsert.
    destruct (category_eqb c' c); reflexivity.
Qed.

Lemma one_per_category_filter (p : budget A -> bool) (bs : list (budget A)) :
  one_per_category bs -> one_per_category (filter p bs).
Proof.
  unfold one_per_category.
  induction bs as [| b bs IH]; simpl; intros H.
  - constructor.
  - inversion H as [| x l Hnot Hnd]; subst.
    destruct (p b); simpl; [| auto ].
    constructor; [| auto ].
    intros Hin. apply Hnot.
    apply in_map_iff in Hin. destruct Hin as [b' [Hc Hin]].
    apply filter_In in Hin. apply in_map_iff. exists b'. tauto.
Qed.

Lemma one_per_category_snoc (bs : list (budget A)) (b : budget A) :
  one_per_category bs ->
  ~ In (budget_Category b) (map budget_Category bs) ->
  one_per_category (bs ++ [b]).
Proof.
  unfold one_per_category.
  induction bs as [| x bs IH]; simpl; intros Hnd Hnot.
  - constructor; [ intros [] | constructor ].
  - inversion Hnd as [| y l Hx Hnd']; subst.
    constructor.
    + rewrite map_app, in_app_iff. simpl. intuition.
    + apply IH; [ exact Hnd' | tauto ].
Qed.

Lemma upsert_budget_one_per_category (st : session_state A) (c : category)
      (v : A) :
  one_per_category (budgets st) ->
  one_per_category (budgets (upsert_budget st c v)).
Proof.
  intros H. unfold upsert_budget; simpl.
  apply one_per_category_snoc.
  - apply one_per_category_filter. exact H.
  - simpl. intros Hin. apply in_map_iff in Hin.
    destruct Hin as [b [Hc Hin]]. apply filter_In in Hin.
    destruct Hin as [_ Hneq]. rewrite Hc, category_eqb_refl in Hneq.
    discriminate.
Qed.

Lemma upsert_all_one_per_category (ups : list (category * A))
      (st : session_state A) :
  one_per_category (budgets st) ->
  one_per_category (budgets (upsert_all st ups)).
Proof.
  revert st.
  induction ups as [| u rest IH]; intros st H; simpl.
  - exact H.
  - apply IH, upsert_budget_one_per_category, H.
Qed.

Lemma sidebar_budgets (w : widgets A) (st : session_state A) :
  budgets (sidebar w st)
  = if set_budget_clicked w
    then budgets (upsert_budget st (budget_category w) (budget_amount w))
    else budgets st.
Proof.
  unfold sidebar.
  destruct (add_transaction_clicked w), (set_budget_clicked w); reflexivity.
Qed.

(** The budgets after some runs of the script are those left by the
    upserts of these runs: nothing else writes the frame. *)
Lemma run_budgets (ws : list (widgets A)) (st st' : session_state A) :
  budgets st = budgets st' ->
  budgets (fold_left (fun s w => sidebar w s) ws st)
  = budgets (upsert_all st' (upserts_of ws)).
Proof.
  revert st st'.
  induction ws as [| w ws IH]; intros st st' H; simpl.
  - exact H.
  - unfold upsert_all. rewrite fold_left_app. apply IH.
    rewrite sidebar_budgets.
    destruct (set_budget_clicked w); simpl; [| exact H ].
    rewrite H. reflexivity.
Qed.

(** C4. After any sequence of upserts applied to the empty store, no two
    budget records share a category, and the records of a category are
    exactly the one written by its most recent upsert (none if it was
    never set): the last write wins and nothing is added up.  The budgets
    of the running script are the result of its upserts. *)
Theorem upsert_last_write_wins (ups : list (category * A))
        (ws : list (widgets A)) :
  NoDup (map budget_Category (budgets (upsert_all initial_state ups)))
  /\ (forall c : category,
        budgets_of c (budgets (upsert_all initial_state ups))
        = match last_upsert c ups with
          | Some v => [ {| budget_Category := c; budget_Amount := v |} ]
          | None => []
          end)
  /\ budgets (run_script ws)
     = budgets (upsert_all initial_state (upserts_of ws)).
Proof.
  split; [| split ].
  - apply upsert_all_one_per_category. constructor.
  - intros c. rewrite budgets_of_upsert_all. reflexivity.
  - apply run_budgets. reflexivity.
Qed.

(** C10. Adding a transaction leaves the budgets as they are and setting
    a budget leaves the transactions as they are; a run of the sidebar
    changes each frame only through its own button. *)
Theorem handlers_frame (st : session_state A) (t : transaction A)
        (c : category) (v : A) (w : widgets A) :
  budgets (add_transaction st t) = budgets st
  /\ transactions (upsert_budget st c v) = transactions st
  /\ transactions (sidebar w st)
     = (if add_transaction_clicked w
        then transactions st ++ [new_transaction w]
        else transactions st)
  /\ budgets (sidebar w st)
     = (if set_budget_clicked w
        then budgets (upsert_budget st (budget_category w) (budget_amount w))
        else budgets st).
Proof.
  repeat split.
  - unfold sidebar.
    destruct (add_transaction_clicked w), (set_budget_clicked w); reflexivity.
  - unfold sidebar.
    destruct (add_transaction_clicked w), (set_budget_clicked w); reflexivity.
Qed.

End StoreFacts.

(** ** The laws the two arithmetics satisfy

    Binary64 satisfies every law used below except those of exact
    addition, which hold for exact rationals. *)


Lemma Float_mul_0_hundred : mul (zero : Float_arith) hundred = zero.
Proof. reflexivity. Qed.

Lemma Float_zero_not_positive : ~ lt (zero : Float_arith) zero.
Proof. simpl. discriminate. Qed.

Lemma Float_sub_0_r (x : Float_arith) : sub x zero = x.
Proof.
  apply Prim2SF_inj. simpl. rewrite sub_spec.
  change (Prim2SF 0) with (S754_zero false).
  destruct (Prim2SF x) as [[|] | | |]; reflexivity.
Qed.

Lemma Float_div_0_pos (x : Float_arith) : lt zero x -> div zero x = zero.
Proof.
  simpl. rewrite ltb_spec. intros H.
  apply Prim2SF_inj. rewrite div_spec.
  change (Prim2SF 0) with (S754_zero false) in *.
  destruct (Prim2SF x) as [[|] | [|] | | [|] m e];
    try discriminate; reflexivity.
Qed.

(** A value that passes the minimum of the number input is positive. *)
Lemma Float_limit_positive (x : Float_arith) : le min_value x -> lt zero x.
Proof.
  simpl. rewrite leb_spec, ltb_spec.
  change (Prim2SF 0) with (S754_zero false).
  set (m := Prim2SF 0x1.47ae147ae147bp-7). vm_compute in m. subst m.
  destruct (Prim2SF x) as [[|] | [|] | | [|] m e];
    try discriminate; reflexivity.
Qed.




(** ** Totals *)

Section TotalsFacts.

Context {A : Arith}.



Hypothesis sub_0_0 : sub (zero : A) zero = zero.


End TotalsFacts.


(** ** Monthly trend *)

Lemma filter_map_swap {X Y : Type} (f : X -> Y) (p : Y -> bool) (l : list X) :
  filter p (map f l) = map f (filter (fun x => p (f x)) l).
Proof.
  induction l as [| x l IH]; simpl; [ reflexivity |].
  destruct (p (f x)); simpl; rewrite IH; reflexivity.
Qed.

Section MonthlyFacts.

Context {A : Arith}.

Lemma monthly_data_keys (txs : list (transaction A)) :
  map monthly_key (monthly_data txs)
  = group_keys month_type_compare month_type txs.
Proof.
  unfold monthly_data. rewrite map_map.
  rewrite <- (groupby_sum_keys month_type_compare month_type Amount txs).
  apply map_ext. intros [[m k] v]. reflexivity.
Qed.





Hypothesis add_assoc : forall x y z : A, add x (add y z) = add (add x y) z.
Hypothesis add_comm : forall x y : A, add x y = add y x.
Hypothesis add_0_l : forall x : A, add zero x = x.


End MonthlyFacts.


(** ** Expense breakdown *)

Section BreakdownFacts.

Context {A : Arith}.



Lemma unique_NoDup (cs : list category) : NoDup (unique cs).
Proof.
  induction cs as [| x cs IH]; simpl; constructor.
  - rewrite filter_In, category_eqb_refl. intros [_ H]. discriminate.
  - apply NoDup_filter, IH.
Qed.

Lemma pie_labels (rows : list (transaction A)) :
  map fst (pie rows) = unique (map Category rows).
Proof. unfold pie. rewrite map_map. apply map_id. Qed.

Lemma filter_twice {X : Type} (p q : X -> bool) (l : list X) :
  filter q (filter p l) = filter (fun x => p x && q x) l.
Proof.
  induction l as [| x l IH]; simpl; [ reflexivity |].
  destruct (p x); simpl; [ destruct (q x) |]; rewrite IH; reflexivity.
Qed.


End BreakdownFacts.

(** ** Budget versus actual *)

Section BudgetFacts.

Context {A : Arith}.

Lemma expenses_by_category_keys (txs : list (transaction A)) :
  map fst (expenses_by_category txs)
  = group_keys category_compare Category (expenses txs).
Proof. apply groupby_sum_keys. Qed.

Lemma in_group_category (c : category) (t : transaction A) :
  in_group category_compare Category c t = category_eqb (Category t) c.
Proof.
  pose proof (in_group_true _ Category category_compare_eq
                category_compare_antisym c t) as H.
  pose proof (category_eqb_eq (Category t) c) as H'.
  destruct (in_group category_compare Category c t),
           (category_eqb (Category t) c); intuition congruence.
Qed.

Lemma expenses_by_category_In (txs : list (transaction A)) (c : category)
      (v : A) :
  In (c, v) (expenses_by_category txs) ->
  v = actual_spending c txs.
Proof.
  unfold expenses_by_category. intros H.
  apply groupby_sum_In in H. destruct H as [_ ->].
  unfold actual_spending, expenses.
  rewrite (filter_ext _ _ (in_group_category c)), filter_twice.
  reflexivity.
Qed.

(** A category without expenses has no group, hence adds up to nothing. *)
Lemma actual_spending_none (txs : list (transaction A)) (c : category) :
  ~ In c (map fst (expenses_by_category txs)) ->
  actual_spending c txs = zero.
Proof.
  intros Hnot. unfold actual_spending.
  rewrite filter_none; [ reflexivity |].
  intros t Ht.
  destruct (has_type Expense t) eqn:E1; [| reflexivity ].
  destruct (category_eqb (Category t) c) eqn:E2; [| reflexivity ].
  exfalso. apply Hnot. rewrite expenses_by_category_keys.
  apply (group_keys_In _ Category category_compare_eq).
  exists t. split.
  - apply filter_In. auto.
  - apply category_eqb_eq. exact E2.
Qed.

(** The right rows that match one key of the left frame. *)
Lemma matches_of_key (l : list (category * A)) (c : category) :
  NoDup (map fst l) ->
  (~ In c (map fst l)
   /\ filter (fun e => category_eqb (fst e) c) l = [])
  \/ (exists v, In (c, v) l
                /\ filter (fun e => category_eqb (fst e) c) l = [ (c, v) ]).
Proof.
  induction l as [| [c' v'] l IH]; simpl; intros Hnd.
  - left. split; [ tauto | reflexivity ].
  - inversion Hnd as [| x xs Hnot Hnd']; subst.
    destruct (category_eqb c' c) eqn:E.
    + apply category_eqb_eq in E. subst c'.
      right. exists v'. split; [ auto |].
      f_equal. apply filter_none. intros [c1 v1] H1. simpl.
      apply category_eqb_neq. intros ->. apply Hnot.
      apply in_map_iff. exists (c, v1). auto.
    + apply category_eqb_neq in E.
      destruct (IH Hnd') as [[Hn Hf] | [v [Hin Hf]]].
      * left. split; [ tauto | exact Hf ].
      * right. exists v. auto.
Qed.

Lemma merge_left_rows (txs : list (transaction A)) (bs : list (budget A)) :
  map (fun m => (fst (fst m), snd (fst m), fillna (snd m)))
      (merge_left bs (expenses_by_category txs))
  = map (fun b => (budget_Category b, budget_Amount b,
                   actual_spending (budget_Category b) txs))
        bs.
Proof.
  assert (Hnd : NoDup (map fst (expenses_by_category txs))).
  { rewrite expenses_by_category_keys.
    apply (group_keys_NoDup _ Category category_compare_eq
             category_compare_antisym category_compare_trans). }
  induction bs as [| b bs IH]; simpl; [ reflexivity |].
  rewrite map_app, IH. clear IH.
  destruct (matches_of_key _ (budget_Category b) Hnd)
    as [[Hn ->] | [v [Hin ->]]]; simpl.
  - rewrite (actual_spending_none _ _ Hn). reflexivity.
  - rewrite (expenses_by_category_In _ _ _ Hin). reflexivity.
Qed.

(** The table is the list of budget lines, in the order of the budgets. *)
Lemma budget_vs_actual_lines (txs : list (transaction A))
      (bs : list (budget A)) :
  budget_vs_actual txs bs = map (budget_line txs) bs.
Proof.
  unfold budget_vs_actual.
  transitivity
    (map (fun x : category * A * A =>
            {| row_Category := fst (fst x);
               Amount_budget := snd (fst x);
               Amount_actual := snd x;
               Remaining := sub (snd (fst x)) (snd x);
               Percentage_Used := mul (div (snd x) (snd (fst x))) hundred |})
         (map (fun m => (fst (fst m), snd (fst m), fillna (snd m)))
              (merge_left bs (expenses_by_category txs)))).
  - rewrite map_map. reflexivity.
  - rewrite merge_left_rows, map_map. reflexivity.
Qed.

Lemma budget_vs_actual_categories (txs : list (transaction A))
      (bs : list (budget A)) :
  map row_Category (budget_vs_actual txs bs) = map budget_Category bs.
Proof. rewrite budget_vs_actual_lines, map_map. reflexivity. Qed.


(** Nothing was spent in a category without Expense transactions. *)
Lemma actual_spending_unspent (txs : list (transaction A)) (c : category) :
  (forall t, In t txs -> Type_ t = Expense -> Category t <> c) ->
  actual_spending c txs = zero.
Proof.
  intros Hc. unfold actual_spending.
  rewrite filter_none; [ reflexivity |].
  intros t Ht. unfold has_type.
  destruct (kind_eqb (Type_ t) Expense) eqn:E1; [| reflexivity ].
  destruct (category_eqb (Category t) c) eqn:E2; [| reflexivity ].
  apply kind_eqb_eq in E1. apply category_eqb_eq in E2.
  elim (Hc t Ht E1 E2).
Qed.


End BudgetFacts.


(** ** Budgets without spending, and the divisor of the percentage *)

Section LimitFacts.

Context {A : Arith}.

Lemma one_per_category_inj (bs : list (budget A)) (b b' : budget A) :
  one_per_category bs -> In b bs -> In b' bs ->
  budget_Category b = budget_Category b' -> b = b'.
Proof.
  unfold one_per_category.
  induction bs as [| x bs IH]; simpl; intros Hnd Hb Hb' Hc; [ tauto |].
  inversion Hnd as [| y l Hnot Hnd']; subst.
  destruct Hb as [-> | Hb], Hb' as [-> | Hb'].
  - reflexivity.
  - elim Hnot. rewrite Hc. apply in_map. exact Hb'.
  - elim Hnot. rewrite <- Hc. apply in_map. exact Hb.
  - apply IH; assumption.
Qed.

Lemma tab3_shown (st : session_state A) :
  transactions st <> [] -> budgets st <> [] ->
  tab3 st = Some (budget_vs_actual (transactions st) (budgets st)).
Proof.
  unfold tab3. destruct (transactions st), (budgets st); tauto.
Qed.

Lemma reachable_one_per_category (st : session_state A) :
  reachable st -> one_per_category (budgets st).
Proof.
  induction 1 as [| st w Hst IH Hw].
  - constructor.
  - rewrite sidebar_budgets. destruct (set_budget_clicked w); [| exact IH ].
    apply upsert_budget_one_per_category, IH.
Qed.

(** The reachable stores are those left by runs whose widgets respect
    their minimum. *)
Lemma reachable_fold (ws : list (widgets A)) (st : session_state A) :
  reachable st -> Forall widgets_ok ws ->
  reachable (fold_left (fun s w => sidebar w s) ws st).
Proof.
  revert st.
  induction ws as [| w ws IH]; intros st Hst Hws; simpl.
  - exact Hst.
  - inversion Hws as [| x l Hw Hws']; subst.
    apply IH; [ apply reachable_run; assumption | exact Hws' ].
Qed.

Lemma reachable_run_script (ws : list (widgets A)) :
  Forall widgets_ok ws -> reachable (run_script ws).
Proof. apply reachable_fold. constructor. Qed.

(** What the minimum of the number inputs buys. *)
Hypothesis limit_positive : forall x : A, le min_value x -> lt zero x.
Hypothesis zero_not_positive : ~ lt (zero : A) zero.

Lemma positive_nonzero (x : A) : lt zero x -> x <> zero.
Proof. intros H ->. exact (zero_not_positive H). Qed.

Lemma reachable_limits_positive (st : session_state A) :
  reachable st -> Forall (fun b => lt zero (budget_Amount b)) (budgets st).
Proof.
  induction 1 as [| st w Hst IH Hw].
  - constructor.
  - rewrite sidebar_budgets. destruct (set_budget_clicked w); [| exact IH ].
    unfold upsert_budget; simpl. apply Forall_app. split.
    + rewrite Forall_forall in IH |- *. intros b Hb.
      apply filter_In in Hb. apply IH, Hb.
    + constructor; [| constructor ]. simpl.
      apply limit_positive, Hw.
Qed.

(** C9. In every store the script can reach, each budget limit is
    strictly positive, because the number input refuses anything below
    its minimum; hence in every row of the table the divisor of the
    percentage, the limit, is positive and not 0: the division is always
    defined. *)
Theorem percentage_divisor_nonzero (st : session_state A) :
  reachable st ->
  Forall (fun b => lt zero (budget_Amount b)) (budgets st)
  /\ forall r,
       In r (budget_vs_actual (transactions st) (budgets st)) ->
       lt zero (Amount_budget r)
       /\ Amount_budget r <> zero
       /\ Percentage_Used r
          = mul (div (Amount_actual r) (Amount_budget r)) hundred.
Proof.
  intros Hst.
  pose proof (reachable_limits_positive Hst) as Hpos.
  split; [ exact Hpos |].
  intros r Hr. rewrite budget_vs_actual_lines in Hr.
  apply in_map_iff in Hr. destruct Hr as [b [<- Hb]]. simpl.
  rewrite Forall_forall in Hpos. specialize (Hpos b Hb).
  split; [ exact Hpos |].
  split; [ apply positive_nonzero, Hpos | reflexivity ].
Qed.

End LimitFacts.

Section UnspentFacts.

Context {A : Arith}.

Hypothesis sub_0_r : forall x : A, sub x zero = x.
Hypothesis div_0_pos : forall x : A, lt zero x -> div zero x = zero.
Hypothesis mul_0_hundred : mul (zero : A) hundred = zero.

(** C3. For a budget record with a positive limit L whose category has no
    Expense transaction, the table has the row (category, L, actual 0,
    remaining L, percentage 0), and when each category has one record it
    is the only row of that category.  The tab shows the table as soon
    as the ledger has a transaction of any kind. *)
Theorem unspent_budget_row (txs : list (transaction A))
        (bs : list (budget A)) (b : budget A) :
  one_per_category bs ->
  In b bs ->
  lt zero (budget_Amount b) ->
  (forall t, In t txs -> Type_ t = Expense ->
             Category t <> budget_Category b) ->
  In {| row_Category := budget_Category b;
        Amount_budget := budget_Amount b;
        Amount_actual := zero;
        Remaining := budget_Amount b;
        Percentage_Used := zero |}
     (budget_vs_actual txs bs)
  /\ (forall r,
        In r (budget_vs_actual txs bs) ->
        row_Category r = budget_Category b ->
        Amount_budget r = budget_Amount b
        /\ Amount_actual r = zero
        /\ Remaining r = budget_Amount b
        /\ Percentage_Used r = zero)
  /\ (txs <> [] ->
      tab3 {| transactions := txs; budgets := bs |}
      = Some (budget_vs_actual txs bs)).
Proof.
  intros Hone Hb Hpos Hnone.
  assert (Hline : budget_line txs b
                  = {| row_Category := budget_Category b;
                       Amount_budget := budget_Amount b;
                       Amount_actual := zero;
                       Remaining := budget_Amount b;
                       Percentage_Used := zero |}).
  { unfold budget_line.
    rewrite (actual_spending_unspent txs Hnone).
    rewrite sub_0_r, (div_0_pos _ Hpos), mul_0_hundred.
    reflexivity. }
  rewrite budget_vs_actual_lines.
  split; [| split ].
  - rewrite <- Hline. apply in_map. exact Hb.
  - intros r Hr Hc. apply in_map_iff in Hr. destruct Hr as [b' [<- Hb']].
    simpl in Hc.
    rewrite (@one_per_category_inj A bs b' b Hone Hb' Hb Hc), Hline.
    simpl. auto.
  - intros Hne. rewrite <- budget_vs_actual_lines.
    apply (tab3_shown {| transactions := txs; budgets := bs |}); simpl.
    + exact Hne.
    + destruct bs; [ destruct Hb | discriminate ].
Qed.

End UnspentFacts.

Lemma percentage_divisor_nonzero_witness :
  reachable (sidebar first_run initial_state)
  /\ Forall (fun b : budget Float_arith => lt zero (budget_Amount b))
            (budgets (sidebar first_run initial_state)).
Proof.
  assert (H : reachable (sidebar first_run initial_state)).
  { apply reachable_run; [ apply reachable_init |].
    split; reflexivity. }
  split; [ exact H |].
  exact (proj1 (percentage_divisor_nonzero Float_limit_positive
                  Float_zero_not_positive H)).
Defined.

Lemma unspent_budget_row_witness :
  In {| row_Category := Rent;
        Amount_budget := 1200%float : Float_arith;
        Amount_actual := zero;
        Remaining := 1200%float : Float_arith;
        Percentage_Used := zero |}
     (budget_vs_actual scenario [scenario_budget; rent_limit]).
Proof.
  assert (Hone : one_per_category [scenario_budget; rent_limit]).
  { unfold one_per_category. simpl.
    repeat constructor; simpl; intuition discriminate. }
  assert (Hin : In rent_limit [scenario_budget; rent_limit])
    by (right; left; reflexivity).
  assert (Hpos : lt (zero : Float_arith) (budget_Amount rent_limit))
    by reflexivity.
  assert (Hnone : forall t, In t scenario -> Type_ t = Expense ->
                            Category t <> budget_Category rent_limit).
  { intros t [<- | [<- | []]] Hk Hc; discriminate. }
  exact (proj1 (unspent_budget_row Float_sub_0_r Float_div_0_pos
                  Float_mul_0_hundred scenario rent_limit Hone Hin Hpos
                  Hnone)).
Defined.


(** ** Transaction history and export *)

Section HistoryFacts.

Context {A : Arith}.




End HistoryFacts.

(** ** The worked ledger *)

Example ledger_shown_by_date :
  sort_values_Date_descending ledger = [dinner; salary; groceries].
Proof. reflexivity. Qed.

Example ledger_exported_as_stored :
  snd (to_csv ledger) = map record_of [groceries; dinner; salary].
Proof. reflexivity. Qed.

Example ledger_total_expenses : total_expenses ledger = amount 80 1.
Proof. apply Qc_is_canon. reflexivity. Qed.

Example ledger_monthly_data :
  map (fun r : monthly_row Qc_arith =>
         (Month r, monthly_Type r, this (monthly_Amount r)))
      (monthly_data ledger)
  = [ ("2024-01"%string, Expense, 50 # 1);
      ("2024-01"%string, Income, 2500 # 1);
      ("2024-02"%string, Expense, 30 # 1) ]%Q.
Proof. reflexivity. Qed.

Example ledger_budget_vs_actual :
  map (fun r : budget_row Qc_arith =>
         (row_Category r, this (Amount_budget r), this (Amount_actual r),
          this (Remaining r), this (Percentage_Used r)))
      (budget_vs_actual ledger [food_budget; rent_budget])
  = [ (Food, 100 # 1, 80 # 1, 20 # 1, 80 # 1);
      (Rent, 1200 # 1, 0 # 1, 1200 # 1, 0 # 1) ]%Q.
Proof. reflexivity. Qed.

Example ledger_breakdown :
  map (fun s : category * Qc_arith => (fst s, this (snd s)))
      (pie (expenses ledger))
  = [ (Food, 80 # 1) ]%Q.
Proof. reflexivity. Qed.

(** ** The scenario of the specification, computed in binary64 *)

Example scenario_total_expenses : total_expenses scenario = 80%float.
Proof. reflexivity. Qed.

Example scenario_budget_vs_actual :
  budget_vs_actual scenario [scenario_budget]
  = [ {| row_Category := Food;
         Amount_budget := 100%float : Float_arith;
         Amount_actual := 80%float : Float_arith;
         Remaining := 20%float : Float_arith;
         Percentage_Used := 80%float : Float_arith |} ].
Proof. reflexivity. Qed.

Example scenario_monthly_data :
  monthly_data scenario
  = [ {| Month := "2024-01";
         monthly_Type := Expense;
         monthly_Amount := 50%float : Float_arith |};
      {| Month := "2024-02";
         monthly_Type := Expense;
         monthly_Amount := 30%float : Float_arith |} ].
Proof. reflexivity. Qed.

(** * Further properties of the script *)

(** ** Runs of the sidebar *)

Section RunFacts.

Context {A : Arith}.

Lemma sidebar_transactions (w : widgets A) (st : session_state A) :
  transactions (sidebar w st)
  = if add_transaction_clicked w
    then transactions st ++ [new_transaction w]
    else transactions st.
Proof.
  unfold sidebar.
  destruct (add_transaction_clicked w), (set_budget_clicked w); reflexivity.
Qed.

Lemma fold_transactions (ws : list (widgets A)) (st : session_state A) :
  transactions (fold_left (fun s w => sidebar w s) ws st)
  = transactions st ++ submitted ws.
Proof.
  revert st.
  induction ws as [| w ws IH]; intros st; simpl.
  - symmetry. apply app_nil_r.
  - rewrite IH, sidebar_transactions. unfold submitted. simpl.
    destruct (add_transaction_clicked w); simpl.
    + rewrite <- app_assoc. reflexivity.
    + reflexivity.
Qed.

Lemma fold_left_sidebar_app (ws ws' : list (widgets A))
      (st : session_state A) :
  fold_left (fun s w => sidebar w s) (ws ++ ws') st
  = fold_left (fun s w => sidebar w s) ws'
              (fold_left (fun s w => sidebar w s) ws st).
Proof. apply fold_left_app. Qed.

(** X1. The ledger is append-only: after any runs of the script it holds
    exactly the submitted transactions, in the order of submission, and
    further runs leave the rows already stored where they are. *)
Theorem ledger_is_submissions (ws ws' : list (widgets A)) :
  transactions (run_script ws) = submitted ws
  /\ transactions (run_script (ws ++ ws'))
     = transactions (run_script ws) ++ submitted ws'
  /\ List.length (transactions (run_script ws))
     = List.length (filter add_transaction_clicked ws).
Proof.
  unfold run_script.
  split; [| split ].
  - rewrite fold_transactions. reflexivity.
  - rewrite fold_left_sidebar_app, fold_transactions. reflexivity.
  - rewrite fold_transactions. simpl. unfold submitted.
    apply List.length_map.
Qed.

(** X2. Every amount in a reachable store, of a transaction or of a
    budget, is at least the minimum of its number input. *)
Theorem stored_amounts_at_least_minimum (st : session_state A) :
  reachable st ->
  Forall (fun t => le min_value (Amount t)) (transactions st)
  /\ Forall (fun b => le min_value (budget_Amount b)) (budgets st).
Proof.
  induction 1 as [| st w Hst [IHt IHb] [Hwt Hwb]].
  - split; constructor.
  - split.
    + rewrite sidebar_transactions.
      destruct (add_transaction_clicked w); [| exact IHt ].
      apply Forall_app. split; [ exact IHt |].
      constructor; [ exact Hwt | constructor ].
    + rewrite sidebar_budgets.
      destruct (set_budget_clicked w); [| exact IHb ].
      unfold upsert_budget; simpl. apply Forall_app. split.
      * rewrite Forall_forall in IHb |- *. intros b Hb.
        apply filter_In in Hb. apply IHb, Hb.
      * constructor; [ exact Hwb | constructor ].
Qed.

Lemma budgets_present_after_runs (ws : list (widgets A)) (st : session_state A) :
  is_shown (hd_error (budgets (fold_left (fun s w => sidebar w s) ws st)))
  = is_shown (hd_error (budgets st)) || existsb set_budget_clicked ws.
Proof.
  revert st.
  induction ws as [| w ws IH]; intros st; simpl.
  - symmetry. apply orb_false_r.
  - rewrite IH, sidebar_budgets.
    destruct (set_budget_clicked w); simpl; [| reflexivity ].
    destruct (filter _ (budgets st)); simpl;
      destruct (hd_error (budgets st)); reflexivity.
Qed.

(** X3. The overview and the history replace their notice by content as
    soon as one run has added a transaction, the budget analysis as soon
    as, besides, one run has set a budget; no later run brings a notice
    back. *)
Theorem tabs_shown (ws : list (widgets A)) :
  is_shown (tab1 (run_script ws)) = existsb add_transaction_clicked ws
  /\ is_shown (tab2 (run_script ws)) = existsb add_transaction_clicked ws
  /\ is_shown (tab3 (run_script ws))
     = existsb add_transaction_clicked ws && existsb set_budget_clicked ws.
Proof.
  assert (Ht : is_shown (hd_error (transactions (run_script ws)))
               = existsb add_transaction_clicked ws).
  { unfold run_script. rewrite fold_transactions. simpl. unfold submitted.
    induction ws as [| w ws IH]; simpl; [ reflexivity |].
    destruct (add_transaction_clicked w); simpl; [ reflexivity | exact IH ]. }
  assert (Hb : is_shown (hd_error (budgets (run_script ws)))
               = existsb set_budget_clicked ws).
  { unfold run_script. rewrite budgets_present_after_runs. reflexivity. }
  unfold tab1, tab2, tab3.
  destruct (transactions (run_script ws)), (budgets (run_script ws));
    simpl in *; rewrite <- Ht, <- Hb; auto.
Qed.

Lemma drop_category_twice (c : category) (bs more : list (budget A)) :
  Forall (fun b => budget_Category b = c) more ->
  filter (fun b => negb (category_eqb (budget_Category b) c))
         (filter (fun b => negb (category_eqb (budget_Category b) c)) bs
          ++ more)
  = filter (fun b => negb (category_eqb (budget_Category b) c)) bs.
Proof.
  intros Hmore. rewrite filter_app, filter_twice.
  rewrite (filter_none _ more).
  - rewrite app_nil_r. apply filter_ext. intros b.
    destruct (negb (category_eqb (budget_Category b) c)); reflexivity.
  - intros b Hb. rewrite Forall_forall in Hmore.
    rewrite (Hmore b Hb), category_eqb_refl. reflexivity.
Qed.

(** X4. Setting the budget of a category again overwrites: two upserts
    of one category in a row leave the store that the second alone
    leaves. *)
Theorem upsert_overwrites (st : session_state A) (c : category) (v v' : A) :
  upsert_budget (upsert_budget st c v') c v = upsert_budget st c v.
Proof.
  unfold upsert_budget; simpl. f_equal. f_equal.
  apply drop_category_twice. constructor; [ reflexivity | constructor ].
Qed.

Lemma category_listed (c : category) : In c all_categories.
Proof. destruct c; simpl; tauto. Qed.

(** X5. The budget frame never holds more than six records, one per
    option of the select box. *)
Theorem budgets_at_most_six (ws : list (widgets A)) :
  (List.length (budgets (run_script ws)) <= 6)%nat.
Proof.
  unfold run_script.
  rewrite (run_budgets ws initial_state initial_state eq_refl).
  rewrite <- (List.length_map budget_Category).
  change 6%nat with (List.length all_categories).
  apply NoDup_incl_length.
  - apply upsert_all_one_per_category. constructor.
  - intros c _. apply category_listed.
Qed.

Lemma sidebar_not_clicked (w : widgets A) (st : session_state A) :
  clicked w = false -> sidebar w st = st.
Proof.
  unfold clicked, sidebar. intros H. apply orb_false_elim in H.
  destruct H as [-> ->]. reflexivity.
Qed.

(** X6. Runs in which no button fired (the script also runs when a
    widget merely changes) leave no trace: the store after a sequence of
    runs is the store after its runs with a click. *)
Theorem only_clicks_count (ws : list (widgets A)) :
  run_script ws = run_script (filter clicked ws).
Proof.
  unfold run_script. generalize (@initial_state A).
  induction ws as [| w ws IH]; intros st; simpl.
  - reflexivity.
  - destruct (clicked w) eqn:E; simpl.
    + apply IH.
    + rewrite (sidebar_not_clicked w st E). apply IH.
Qed.

End RunFacts.

Lemma stored_amounts_at_least_minimum_witness :
  reachable (sidebar first_run initial_state)
  /\ Forall (fun t : transaction Float_arith => le min_value (Amount t))
            (transactions (sidebar first_run initial_state)).
Proof.
  assert (H : reachable (sidebar first_run initial_state)).
  { apply reachable_run; [ apply reachable_init |].
    split; reflexivity. }
  split; [ exact H |].
  exact (proj1 (stored_amounts_at_least_minimum H)).
Defined.

(** ** How the views follow the store *)

Section ViewFacts.

Context {A : Arith}.





Lemma expenses_twice (txs : list (transaction A)) :
  expenses (expenses txs) = expenses txs.
Proof.
  unfold expenses. rewrite filter_twice. apply filter_ext.
  intros t. destruct (has_type Expense t); reflexivity.
Qed.

(** X9. Incomes never reach the spending views: the budget table, the
    expense breakdown and the total of expenses are those of the ledger
    with its Income rows removed. *)
Theorem spending_views_ignore_income (txs : list (transaction A))
        (bs : list (budget A)) :
  budget_vs_actual txs bs = budget_vs_actual (expenses txs) bs
  /\ expense_breakdown txs = expense_breakdown (expenses txs)
  /\ total_expenses txs = total_expenses (expenses txs).
Proof.
  split; [| split ].
  - unfold budget_vs_actual, expenses_by_category.
    rewrite expenses_twice. reflexivity.
  - unfold expense_breakdown. rewrite expenses_twice. reflexivity.
  - unfold total_expenses. fold (expenses txs). fold (expenses (expenses txs)).
    rewrite expenses_twice. reflexivity.
Qed.

(** X10. Setting a budget moves its category to the end of the table:
    the rows of the other categories stay, in their order, and the row of
    the category set comes last, with the new limit. *)
Theorem table_after_upsert (txs : list (transaction A))
        (st : session_state A) (c : category) (v : A) :
  budget_vs_actual txs (budgets (upsert_budget st c v))
  = filter (fun r => negb (category_eqb (row_Category r) c))
           (budget_vs_actual txs (budgets st))
    ++ budget_vs_actual txs
         [ {| budget_Category := c; budget_Amount := v |} ].
Proof.
  rewrite !budget_vs_actual_lines. unfold upsert_budget; simpl.
  rewrite map_app, filter_map_swap. reflexivity.
Qed.

Lemma keep_last_snoc (cs : list category) (c : category) :
  keep_last (cs ++ [c])
  = filter (fun x => negb (category_eqb x c)) (keep_last cs) ++ [c].
Proof.
  induction cs as [| x cs IH]; simpl.
  - reflexivity.
  - rewrite existsb_app. simpl. rewrite orb_false_r.
    destruct (category_eqb x c) eqn:Exc.
    + rewrite orb_true_r, IH.
      destruct (existsb (category_eqb x) cs); simpl;
        [| rewrite Exc ]; reflexivity.
    + rewrite orb_false_r.
      destruct (existsb (category_eqb x) cs); simpl.
      * exact IH.
      * rewrite Exc, IH. reflexivity.
Qed.

Lemma upsert_all_snoc (st : session_state A) (ups : list (category * A))
      (u : category * A) :
  upsert_all st (ups ++ [u])
  = upsert_budget (upsert_all st ups) (fst u) (snd u).
Proof. unfold upsert_all. rewrite fold_left_app. reflexivity. Qed.

Lemma upsert_all_categories (ups : list (category * A)) :
  map budget_Category (budgets (upsert_all initial_state ups))
  = keep_last (map fst ups).
Proof.
  induction ups as [| u ups IH] using rev_ind.
  - reflexivity.
  - rewrite upsert_all_snoc, map_app. simpl. rewrite keep_last_snoc, <- IH.
    rewrite map_app. simpl. f_equal.
    generalize (budgets (upsert_all initial_state ups)). intros bs.
    induction bs as [| b bs IHbs]; simpl; [ reflexivity |].
    destruct (category_eqb (budget_Category b) (fst u)); simpl;
      rewrite IHbs; reflexivity.
Qed.

(** X11. The rows of the budget table come in the order in which the
    categories were last set: the categories of the upserts, each kept at
    its last occurrence. *)
Theorem table_in_order_of_last_setting (txs : list (transaction A))
        (ups : list (category * A)) :
  map row_Category
      (budget_vs_actual txs (budgets (upsert_all initial_state ups)))
  = keep_last (map fst ups).
Proof.
  rewrite budget_vs_actual_categories. apply upsert_all_categories.
Qed.

End ViewFacts.

(** ** The table of the history tab *)

Lemma date_compare_lt_iff (a b : date) :
  date_compare a b = Lt <->
  year a < year b
  \/ (year a = year b
      /\ (month a < month b \/ (month a = month b /\ day a < day b))).
Proof.
  unfold date_compare.
  destruct (Z.compare_spec (year a) (year b));
    destruct (Z.compare_spec (month a) (month b));
    destruct (Z.compare_spec (day a) (day b));
    split; intros; try discriminate; try reflexivity; lia.
Qed.

Lemma date_ge_trans (a b c : date) : date_ge a b -> date_ge b c -> date_ge a c.
Proof. unfold date_ge. rewrite !date_compare_lt_iff. lia. Qed.

Lemma date_ge_of_not_gt (a b : date) : date_compare a b <> Gt -> date_ge b a.
Proof.
  unfold date_ge. intros H Hlt. apply H.
  apply date_compare_lt_iff in Hlt.
  unfold date_compare.
  destruct (Z.compare_spec (year a) (year b));
    destruct (Z.compare_spec (month a) (month b));
    destruct (Z.compare_spec (day a) (day b));
    try reflexivity; lia.
Qed.

Lemma date_ge_of_gt (a b : date) : date_compare a b = Gt -> date_ge a b.
Proof. unfold date_ge. congruence. Qed.

Section HistoryTableFacts.

Context {A : Arith}.

Lemma insert_by_date_In (t x : transaction A) (l : list (transaction A)) :
  In x (insert_by_date t l) <-> x = t \/ In x l.
Proof.
  induction l as [| y l IH]; simpl.
  - intuition.
  - destruct (date_compare (Date y) (Date t)); simpl; try rewrite IH;
      intuition.
Qed.

Lemma insert_by_date_perm (t : transaction A) (l : list (transaction A)) :
  Permutation (insert_by_date t l) (t :: l).
Proof.
  induction l as [| y l IH]; simpl.
  - apply Permutation_refl.
  - destruct (date_compare (Date y) (Date t)); try apply Permutation_refl.
    apply perm_trans with (y :: t :: l).
    + apply perm_skip. exact IH.
    + apply perm_swap.
Qed.

Lemma insert_by_date_sorted (t : transaction A) (l : list (transaction A)) :
  StronglySorted (fun a b => date_ge (Date a) (Date b)) l ->
  StronglySorted (fun a b => date_ge (Date a) (Date b)) (insert_by_date t l).
Proof.
  induction 1 as [| y l Hs IH Hall]; simpl.
  - repeat constructor.
  - destruct (date_compare (Date y) (Date t)) eqn:E.
    + constructor; [ constructor; assumption |].
      assert (Hty : date_ge (Date t) (Date y))
        by (apply date_ge_of_not_gt; congruence).
      constructor; [ exact Hty |].
      rewrite Forall_forall in Hall |- *. intros z Hz.
      apply date_ge_trans with (Date y); [ exact Hty | apply Hall, Hz ].
    + constructor; [ constructor; assumption |].
      assert (Hty : date_ge (Date t) (Date y))
        by (apply date_ge_of_not_gt; congruence).
      constructor; [ exact Hty |].
      rewrite Forall_forall in Hall |- *. intros z Hz.
      apply date_ge_trans with (Date y); [ exact Hty | apply Hall, Hz ].
    + constructor; [ exact IH |].
      rewrite Forall_forall in Hall |- *. intros z Hz.
      apply insert_by_date_In in Hz. destruct Hz as [-> | Hz].
      * apply date_ge_of_gt. exact E.
      * apply Hall, Hz.
Qed.

(** X12. The table of the history tab holds the stored transactions,
    each as often as it is stored, none lost and none added, with no row
    dated after a row above it. *)
Theorem history_table_sorted (frame : list (transaction A)) :
  Permutation (sort_values_Date_descending frame) frame
  /\ StronglySorted (fun a b => date_ge (Date a) (Date b))
                    (sort_values_Date_descending frame).
Proof.
  unfold sort_values_Date_descending.
  induction frame as [| t frame [IHp IHs]]; simpl.
  - split; constructor.
  - split.
    + apply perm_trans with (t :: fold_right insert_by_date [] frame).
      * apply insert_by_date_perm.
      * apply perm_skip. exact IHp.
    + apply insert_by_date_sorted. exact IHs.
Qed.

End HistoryTableFacts.


(** ** The charts *)

Lemma StronglySorted_map_inv {X Y : Type} (f : X -> Y) (R : Y -> Y -> Prop)
      (l : list X) :
  StronglySorted R (map f l) -> StronglySorted (fun a b => R (f a) (f b)) l.
Proof.
  induction l as [| x l IH]; simpl; intros H.
  - constructor.
  - inversion H as [| y ys Hs Hall]; subst.
    constructor; [ apply IH, Hs |].
    rewrite Forall_forall in Hall |- *. intros z Hz.
    apply Hall. apply in_map. exact Hz.
Qed.

Lemma StronglySorted_filter_within {X : Type} (R R' : X -> X -> Prop)
      (p : X -> bool) (l : list X) :
  (forall a b, p a = true -> p b = true -> R a b -> R' a b) ->
  StronglySorted R l -> StronglySorted R' (filter p l).
Proof.
  intros Hweak. induction 1 as [| x l Hs IH Hall]; simpl.
  - constructor.
  - destruct (p x) eqn:Ex; [| exact IH ].
    constructor; [ exact IH |].
    rewrite Forall_forall in Hall |- *. intros z Hz.
    apply filter_In in Hz. destruct Hz as [Hz Hp].
    apply Hweak; auto.
Qed.

Lemma insert_key_length {K : Type} (cmp : K -> K -> comparison) (k : K)
      (ks : list K) :
  (List.length (insert_key cmp k ks) <= S (List.length ks))%nat.
Proof.
  induction ks as [| k' ks IH]; simpl.
  - apply Nat.le_refl.
  - destruct (cmp k k'); simpl; lia.
Qed.

Lemma group_keys_length {R K : Type} (cmp : K -> K -> comparison)
      (key : R -> K) (rows : list R) :
  (List.length (group_keys cmp key rows) <= List.length rows)%nat.
Proof.
  induction rows as [| r rows IH]; simpl.
  - apply Nat.le_refl.
  - pose proof (insert_key_length cmp (key r) (group_keys cmp key rows)).
    lia.
Qed.

Section ChartFacts.

Context {A : Arith}.

(** X14. Each line of the trend chart runs forward in time: within the
    rows of one type the month keys strictly increase, so a line has one
    point per month and no month twice. *)
Theorem trend_line_increasing (k : kind) (txs : list (transaction A)) :
  StronglySorted (fun r1 r2 => String.ltb (Month r1) (Month r2) = true)
                 (line_of k (monthly_data txs)).
Proof.
  pose proof (group_keys_sorted _ month_type month_type_compare_eq
                month_type_compare_antisym month_type_compare_trans txs) as Hs.
  rewrite <- monthly_data_keys in Hs.
  apply StronglySorted_map_inv in Hs.
  unfold line_of.
  refine (StronglySorted_filter_within _ _ _ Hs).
  intros r1 r2 H1 H2. apply kind_eqb_eq in H1, H2.
  unfold key_lt, month_type_compare, monthly_key, String.ltb; simpl.
  rewrite H1, H2.
  destruct (String.compare (Month r1) (Month r2)); try congruence.
  unfold kind_compare. rewrite string_compare_refl. discriminate.
Qed.


Lemma unique_length (cs : list category) :
  (List.length (unique cs) <= List.length cs)%nat.
Proof.
  induction cs as [| c cs IH]; simpl.
  - apply Nat.le_refl.
  - pose proof (filter_length_le
                  (fun x => negb (category_eqb x c)) (unique cs)).
    lia.
Qed.

(** X16. The views are bounded by their input: the monthly trend has at
    most one row per transaction, and the pie at most one sector per
    expense and never more than six. *)
Theorem view_sizes (txs : list (transaction A)) :
  (List.length (monthly_data txs) <= List.length txs)%nat
  /\ (List.length (pie (expenses txs)) <= List.length (expenses txs))%nat
  /\ (List.length (pie (expenses txs)) <= 6)%nat.
Proof.
  split; [| split ].
  - unfold monthly_data, groupby_sum. rewrite !List.length_map.
    apply group_keys_length.
  - unfold pie. rewrite List.length_map.
    rewrite <- (List.length_map Category (expenses txs)).
    apply unique_length.
  - rewrite <- (List.length_map fst), pie_labels.
    change 6%nat with (List.length all_categories).
    apply NoDup_incl_length; [ apply unique_NoDup |].
    intros c _. apply category_listed.
Qed.


(** X18. Two transactions dated by the date input fall into the same row
    of the monthly trend exactly when they have the same type and their
    dates the same year and month; the day plays no role. *)
Theorem same_monthly_row (t1 t2 : transaction A) :
  valid_date (Date t1) -> valid_date (Date t2) ->
  (in_month_type (month_key (Date t1)) (Type_ t1) t2 = true <->
   year (Date t1) = year (Date t2)
   /\ month (Date t1) = month (Date t2)
   /\ Type_ t1 = Type_ t2).
Proof.
  intros H1 H2. unfold in_month_type.
  rewrite andb_true_iff, String.eqb_eq, kind_eqb_eq. split.
  - intros [Hm Hk].
    pose proof (read_month_key_month_key H1) as R1.
    pose proof (read_month_key_month_key H2) as R2.
    rewrite Hm, R1 in R2. inversion R2. auto.
  - intros [Hy [Hm Hk]]. unfold month_key. rewrite Hy, Hm. auto.
Qed.

End ChartFacts.

Lemma same_monthly_row_witness :
  in_month_type (month_key (Date (paid 2024 1 1 Food 0.5)))
                (Type_ (paid 2024 1 1 Food 0.5))
                (paid 2024 1 2 Food 0.5)
  = true.
Proof.
  assert (H1 : valid_date (Date (paid 2024 1 1 Food 0.5)))
    by (unfold valid_date; simpl; lia).
  assert (H2 : valid_date (Date (paid 2024 1 2 Food 0.5)))
    by (unfold valid_date; simpl; lia).
  apply (same_monthly_row (paid 2024 1 1 Food 0.5) (paid 2024 1 2 Food 0.5)
                          H1 H2).
  repeat split.
Defined.

Section PieTotal.

Context {A : Arith}.

Hypothesis add_assoc : forall x y z : A, add x (add y z) = add (add x y) z.
Hypothesis add_comm : forall x y : A, add x y = add y x.
Hypothesis add_0_l : forall x : A, add zero x = x.


End PieTotal.

